(** * mini-task-manager: the Flask task API of [backend/app.py]

    A shallow embedding of the five request handlers of [backend/app.py]
    ([fetch_all_tasks], [create_task], [fetch_task], [modify_task],
    [remove_task]) together with [setup_database], [row_to_json] and
    [log_request], followed by the properties of the CRUD contract.

    What is modelled, and how:
    - a Python [str] is its sequence of Unicode code points ([list N]);
      [str.strip()] removes the code points CPython classifies as whitespace;
    - the value returned by [request.get_json()] is a [json] value; Python's
      [None] is [JNull]; a [dict] is an association list read by its first
      matching key;
    - the [tasks] table is the list of its rows in rowid order, next to the
      table's [sqlite_sequence] counter (the table is declared AUTOINCREMENT);
      the CHECK constraint on [task_status] is enforced by the store;
    - the request log [api_logs.txt] is the list of the lines appended so far;
    - what a handler cannot control comes in an [Env]: whether opening the
      log file fails, whether [sqlite3.connect] raises (and with which
      message), and the two readings of the clock.
    Python integers are unbounded, so task ids are [Z]. *)

From Stdlib Require Import List ZArith NArith Bool String Ascii Lia Sorted.
From Stdlib Require Import Floats.SpecFloat DecimalString.
Import ListNotations.
Set Warnings "-register-all".
Local Open Scope Z_scope.

(** ** Python strings *)

Module Py.

(** A [str] is a sequence of code points. *)
Definition str := list N.

(** The code points of an ASCII literal of the source. *)
Definition lit (s : string) : str :=
  map N_of_ascii (list_ascii_of_string s).

Definition str_eqb (a b : str) : bool :=
  if list_eq_dec N.eq_dec a b then true else false.

(** [Py_UNICODE_ISSPACE]: the code points [str.strip()] removes. *)
Definition is_space (c : N) : bool :=
  ((9 <=? c) && (c <=? 13) || (28 <=? c) && (c <=? 32)
   || (c =? 133) || (c =? 160) || (c =? 5760)
   || (8192 <=? c) && (c <=? 8202)
   || (c =? 8232) || (c =? 8233) || (c =? 8239) || (c =? 8287)
   || (c =? 12288))%N.

Fixpoint dropwhile {A} (p : A -> bool) (l : list A) : list A :=
  match l with
  | [] => []
  | x :: r => if p x then dropwhile p r else l
  end.

Definition lstrip (s : str) : str := dropwhile is_space s.
Definition rstrip (s : str) : str := rev (dropwhile is_space (rev s)).

(** [s.strip()] *)
Definition strip (s : str) : str := rstrip (lstrip s).

End Py.
Import Py.

(** ** JSON values, as [request.get_json()] returns them *)

Inductive json :=
| JNull                               (* None *)
| JBool (b : bool)
| JInt (z : Z)
| JFloat (f : spec_float)
| JStr (s : str)
| JList (l : list json)
| JDict (d : list (str * json)).

(** Python truthiness: what [if x] and [not x] test. *)
Definition truthy (x : json) : bool :=
  match x with
  | JNull => false
  | JBool b => b
  | JInt z => negb (z =? 0)
  | JFloat (S754_zero _) => false
  | JFloat _ => true
  | JStr s => match s with [] => false | _ => true end
  | JList l => match l with [] => false | _ => true end
  | JDict d => match d with [] => false | _ => true end
  end.

(** [isinstance(x, str)] *)
Definition isinstance_str (x : json) : bool :=
  match x with JStr _ => true | _ => false end.

(** [x.strip()] for an [x] already known to be a [str]. *)
Definition strip_of (x : json) : str :=
  match x with JStr s => strip s | _ => [] end.

Fixpoint assoc (k : str) (d : list (str * json)) : option json :=
  match d with
  | [] => None
  | (k', v) :: r => if str_eqb k' k then Some v else assoc k r
  end.

(** Exceptions that no handler catches; the framework answers them with its
    own 500 page. *)
Inductive exn := AttributeError | OSError.

(** [data.get(key, default)]: only a [dict] has [get]. *)
Definition get (data : json) (key : str) (default : json) : exn + json :=
  match data with
  | JDict d => inr (match assoc key d with Some v => v | None => default end)
  | _ => inl AttributeError
  end.

(** [x in ['pending', 'done']] *)
Definition in_pending_done (x : json) : bool :=
  match x with
  | JStr s => str_eqb s (lit "pending") || str_eqb s (lit "done")
  | _ => false
  end.

(** [str(n)] of a Python integer. *)
Definition str_of_int (n : Z) : str := lit (NilZero.string_of_int (Z.to_int n)).

(** ** The store: the [tasks] table of [task_manager.db] *)

Record Task := mkTask {
  task_id : Z;
  task_title : str;
  task_status : str;
  created_at : str
}.

(** The rows of [tasks], as [SELECT * FROM tasks] returns them, and the
    [sqlite_sequence] entry that AUTOINCREMENT keeps for the table: the
    largest rowid it has assigned so far, 0 before the first insert. *)
Record Store := mkStore {
  rows : list Task;
  sqlite_sequence : Z
}.

(** [setup_database]: CREATE TABLE IF NOT EXISTS. A file that does not exist
    yet ([None]) gets an empty table; an existing table is left as it is. *)
Definition setup_database (file : option Store) : Store :=
  match file with
  | None => mkStore [] 0
  | Some db => db
  end.

(** CHECK(task_status IN ('pending', 'done')) *)
Definition check_status (s : str) : bool :=
  str_eqb s (lit "pending") || str_eqb s (lit "done").

(** [SELECT * FROM tasks WHERE task_id = ?] followed by [fetchone()]. *)
Definition select_by_id (id : Z) (db : Store) : option Task :=
  find (fun t => task_id t =? id) (rows db).

Fixpoint largest_rowid (rs : list Task) : Z :=
  match rs with
  | [] => 0
  | [t] => task_id t
  | t :: r => Z.max (task_id t) (largest_rowid r)
  end.

(** The rowid AUTOINCREMENT gives the next row: one more than the largest
    rowid in the table (1 for an empty table), and more than every rowid the
    table has ever held. *)
Definition next_rowid (db : Store) : Z :=
  Z.max (match rows db with [] => 1 | _ => largest_rowid (rows db) + 1 end)
        (sqlite_sequence db + 1).

(** [INSERT INTO tasks (task_title, task_status, created_at) VALUES (?, ?, ?)]
    and the cursor's [lastrowid]; [inl] is the message of a [sqlite3.Error]. *)
Definition sql_insert (title status created : str) (db : Store)
  : str + (Store * Z) :=
  if check_status status then
    let new_id := next_rowid db in
    inr (mkStore (rows db ++ [mkTask new_id title status created]) new_id,
         new_id)
  else inl (lit "CHECK constraint failed: tasks").

(** The [updates] dict of [modify_task]: it holds at most the keys
    [task_title] and [task_status]. *)
Record Updates := mkUpdates {
  u_title : option str;
  u_status : option str
}.

Definition set_columns (u : Updates) (t : Task) : Task :=
  mkTask (task_id t)
         (match u_title u with Some s => s | None => task_title t end)
         (match u_status u with Some s => s | None => task_status t end)
         (created_at t).

(** [UPDATE tasks SET k = ?, ... WHERE task_id = ?] for the keys of
    [updates]. *)
Definition sql_update (u : Updates) (id : Z) (db : Store) : str + Store :=
  if existsb (fun t => task_id t =? id) (rows db)
     && match u_status u with Some s => negb (check_status s) | None => false end
  then inl (lit "CHECK constraint failed: tasks")
  else inr (mkStore (map (fun t => if task_id t =? id then set_columns u t else t)
                         (rows db))
                    (sqlite_sequence db)).

(** [DELETE FROM tasks WHERE task_id = ?] *)
Definition sql_delete (id : Z) (db : Store) : Store :=
  mkStore (filter (fun t => negb (task_id t =? id)) (rows db))
          (sqlite_sequence db).

(** ** Responses *)

Inductive body :=
| Json (j : json)        (* jsonify(j) *)
| Text (s : str).        (* a plain string body *)

(** What a view function does: [return body, status], or an exception
    that leaves it. *)
Inductive outcome :=
| Return (b : body) (status : Z)
| Raise (e : exn).

Definition jsonify (j : json) : body := Json j.

(** [{'error': msg}] *)
Definition error_dict (msg : str) : json := JDict [(lit "error", JStr msg)].

(** [row_to_json] *)
Definition row_to_json (row : option Task) : json :=
  match row with
  | None => JNull
  | Some t =>
      JDict [(lit "task_id", JInt (task_id t));
             (lit "task_title", JStr (task_title t));
             (lit "task_status", JStr (task_status t));
             (lit "created_at", JStr (created_at t))]
  end.

(** ** The world a request runs in *)

(** One line of [api_logs.txt]: the values [log_request] interpolates. *)
Record LogLine := mkLogLine {
  l_time : str;
  l_method : str;
  l_endpoint : str;
  l_data : json
}.

Record World := mkWorld {
  db : Store;
  api_logs : list LogLine
}.

Record Env := mkEnv {
  log_fails : bool;              (* open('api_logs.txt', 'a') raises *)
  connect_error : option str;    (* sqlite3.connect raises sqlite3.Error *)
  now : str;                     (* datetime.now() in log_request *)
  now_isoformat : str            (* datetime.now().isoformat() in create_task *)
}.

(** [log_request] *)
Definition log_request (env : Env) (endpoint method : str) (data : json)
           (w : World) : exn + World :=
  if log_fails env then inl OSError
  else inr (mkWorld (db w)
                    (api_logs w ++ [mkLogLine (now env) method endpoint data])).

Definition connect (env : Env) : str + unit :=
  match connect_error env with
  | Some msg => inl msg
  | None => inr tt
  end.

(** [{'error': f'DB issue: {db_err}'}], 500 *)
Definition db_issue (db_err : str) : outcome :=
  Return (jsonify (error_dict (lit "DB issue: " ++ db_err))) 500.

Definition with_db (w : World) (d : Store) : World := mkWorld d (api_logs w).

(** ** The request handlers *)

(** An exception raised by [e] leaves the view function; the world stays as
    it is at that point. *)
Notation "'let/raise' x ':=' e 'at' w 'in' k" :=
  (match e with
   | inl ex => (Raise ex, w)
   | inr x => k
   end)
  (at level 10, x pattern, e at level 100, w at level 9, k at level 200).

(** An [sqlite3.Error] raised inside the [try] block is answered with the
    500 of the [except] clause. *)
Notation "'let/try' x ':=' e 'at' w 'in' k" :=
  (match e with
   | inl db_err => (db_issue db_err, w)
   | inr x => k
   end)
  (at level 10, x pattern, e at level 100, w at level 9, k at level 200).

(** GET /tasks *)
Definition fetch_all_tasks (env : Env) (w : World) : outcome * World :=
  let/raise w := log_request env (lit "/tasks") (lit "GET") JNull w at w in
  let/try _ := connect env at w in
  let tasks := map (fun row => row_to_json (Some row)) (rows (db w)) in
  (Return (jsonify (JList tasks)) 200, w).

(** POST /tasks; [data] is [request.get_json()]. *)
Definition create_task (env : Env) (data : json) (w : World)
  : outcome * World :=
  let/raise w := log_request env (lit "/tasks") (lit "POST") data w at w in
  if negb (truthy data) then
    (Return (jsonify (error_dict (lit "No JSON data provided"))) 400, w)
  else
  let/raise title := get data (lit "task_title") JNull at w in
  let/raise status := get data (lit "task_status") (JStr (lit "pending")) at w in
  if negb (truthy title) || negb (isinstance_str title)
     || negb (truthy (JStr (strip_of title))) then
    (Return (jsonify (error_dict (lit "Task title must be a non-empty string")))
            400, w)
  else if negb (in_pending_done status) then
    (Return (jsonify (error_dict (lit "Status must be pending or done"))) 400, w)
  else
  let/try _ := connect env at w in
  let/try (db', new_id) :=
    sql_insert (strip_of title)
               (match status with JStr s => s | _ => [] end)
               (now_isoformat env) (db w) at w in
  let w := with_db w db' in
  match select_by_id new_id (db w) with
  | Some new_task => (Return (jsonify (row_to_json (Some new_task))) 201, w)
  | None =>
      (Return (jsonify (error_dict (lit "Could not fetch new task"))) 500, w)
  end.

(** GET /tasks/<id> *)
Definition fetch_task (env : Env) (task_id : Z) (w : World)
  : outcome * World :=
  let/raise w :=
    log_request env (lit "/tasks/" ++ str_of_int task_id) (lit "GET") JNull w
    at w in
  let/try _ := connect env at w in
  match select_by_id task_id (db w) with
  | None => (Return (jsonify (error_dict (lit "Task not found"))) 404, w)
  | Some task => (Return (jsonify (row_to_json (Some task))) 200, w)
  end.

(** The [updates] that [modify_task] builds from the body's two fields. *)
Definition updates_of (title status : json) : Updates :=
  mkUpdates
    (if truthy title && isinstance_str title && truthy (JStr (strip_of title))
     then Some (strip_of title) else None)
    (if in_pending_done status
     then Some (match status with JStr s => s | _ => [] end) else None).

(** [not updates] *)
Definition no_updates (u : Updates) : bool :=
  match u_title u, u_status u with
  | None, None => true
  | _, _ => false
  end.

(** PUT /tasks/<id>; [data] is [request.get_json()]. *)
Definition modify_task (env : Env) (task_id : Z) (data : json) (w : World)
  : outcome * World :=
  let/raise w :=
    log_request env (lit "/tasks/" ++ str_of_int task_id) (lit "PUT") data w
    at w in
  if negb (truthy data) then
    (Return (jsonify (error_dict (lit "No JSON data provided"))) 400, w)
  else
  let/raise title := get data (lit "task_title") JNull at w in
  let/raise status := get data (lit "task_status") JNull at w in
  let updates := updates_of title status in
  if no_updates updates then
    (Return (jsonify (error_dict (lit "Nothing to update"))) 400, w)
  else
  let/try _ := connect env at w in
  match select_by_id task_id (db w) with
  | None => (Return (jsonify (error_dict (lit "Task not found"))) 404, w)
  | Some _ =>
      let/try db' := sql_update updates task_id (db w) at w in
      let w := with_db w db' in
      match select_by_id task_id (db w) with
      | Some updated_task =>
          (Return (jsonify (row_to_json (Some updated_task))) 200, w)
      | None =>
          (Return (jsonify (error_dict (lit "Could not fetch updated task")))
                  500, w)
      end
  end.

(** DELETE /tasks/<id> *)
Definition remove_task (env : Env) (task_id : Z) (w : World)
  : outcome * World :=
  let/raise w :=
    log_request env (lit "/tasks/" ++ str_of_int task_id) (lit "DELETE") JNull w
    at w in
  let/try _ := connect env at w in
  match select_by_id task_id (db w) with
  | None => (Return (jsonify (error_dict (lit "Task not found"))) 404, w)
  | Some _ => (Return (Text []) 204, with_db w (sql_delete task_id (db w)))
  end.

(** ** Requests and runs *)

Inductive request :=
| GET_tasks
| POST_tasks (data : json)
| GET_task (id : Z)
| PUT_task (id : Z) (data : json)
| DELETE_task (id : Z).

(** The routing table of the application. *)
Definition handle (env : Env) (rq : request) (w : World) : outcome * World :=
  match rq with
  | GET_tasks => fetch_all_tasks env w
  | POST_tasks data => create_task env data w
  | GET_task id => fetch_task env id w
  | PUT_task id data => modify_task env id data w
  | DELETE_task id => remove_task env id w
  end.

(** Requests served one after the other, each in its own environment; the
    outcomes come back in the order of the requests. *)
Fixpoint run (trace : list (Env * request)) (w : World)
  : list outcome * World :=
  match trace with
  | [] => ([], w)
  | (env, rq) :: rest =>
      let '(o, w1) := handle env rq w in
      let '(os, w2) := run rest w1 in
      (o :: os, w2)
  end.

(** The world of a freshly started service: [setup_database] on a new file,
    and whatever the log holds. *)
Definition fresh (logs : list LogLine) : World :=
  mkWorld (setup_database None) logs.

Inductive reachable : World -> Prop :=
| reach_fresh logs : reachable (fresh logs)
| reach_step env rq w : reachable w -> reachable (snd (handle env rq w)).

(** ** Vocabulary of the properties *)

(** A string that is empty or made of whitespace only. *)
Definition blank (s : str) : bool := forallb is_space s.

Definition leading_space (s : str) : bool :=
  match s with
  | c :: _ => is_space c
  | [] => false
  end.

Definition trailing_space (s : str) : bool := leading_space (rev s).

(** No leading and no trailing whitespace. *)
Definition trimmed (s : str) : Prop :=
  leading_space s = false /\ trailing_space s = false.

(** A title the handlers accept: a string that is not blank. *)
Definition valid_title (title : json) : bool :=
  match title with
  | JStr s => negb (blank s)
  | _ => false
  end.

(** The environment of a request in which neither the log nor the store
    fails. *)
Definition nominal (env : Env) : Prop :=
  log_fails env = false /\ connect_error env = None.

(** The value of a field of a JSON response body. *)
Definition field (key : string) (b : body) : option json :=
  match b with
  | Json (JDict d) => assoc (lit key) d
  | _ => None
  end.

(** The [task_id] a 201 response carries. *)
Definition created_id (o : outcome) : option Z :=
  match o with
  | Return b 201 =>
      match field "task_id" b with
      | Some (JInt id) => Some id
      | _ => None
      end
  | _ => None
  end.

Fixpoint created_ids (os : list outcome) : list Z :=
  match os with
  | [] => []
  | o :: r =>
      match created_id o with
      | Some id => id :: created_ids r
      | None => created_ids r
      end
  end.

Definition ids (d : Store) : list Z := map task_id (rows d).

Definition status_in_enum (t : Task) : Prop :=
  task_status t = lit "pending" \/ task_status t = lit "done".

(** The invariant of the data model on the persisted tasks. *)
Record invariant (d : Store) : Prop := mkInvariant {
  inv_unique : NoDup (ids d);
  inv_status : Forall status_in_enum (rows d);
  inv_title : Forall (fun t => blank (task_title t) = false) (rows d)
}.

(** [created_at] of every task that is still there is what it was. *)
Definition created_at_kept (d d' : Store) : Prop :=
  forall id t t',
    select_by_id id d = Some t -> select_by_id id d' = Some t' ->
    created_at t' = created_at t.

(** Two response bodies carry the same value in a field. *)
Definition same_field (key : string) (b b' : body) : Prop :=
  exists v, field key b = Some v /\ field key b' = Some v.

(** What one request can do to the store. *)
Inductive effect (d : Store) (o : outcome) (d' : Store) : Prop :=
| eff_none :
    d' = d -> created_id o = None -> effect d o d'
| eff_insert s status created new_id :
    blank s = false ->
    sql_insert (strip s) status created d = inr (d', new_id) ->
    created_id o = Some new_id ->
    effect d o d'
| eff_update title status id :
    sql_update (updates_of title status) id d = inr d' ->
    created_id o = None ->
    effect d o d'
| eff_delete id :
    d' = sql_delete id d -> created_id o = None -> effect d o d'.

(** ** Sample values *)

Definition env0 : Env :=
  mkEnv false None (lit "2024-05-01 10:00:00.000000")
        (lit "2024-05-01T10:00:00.000000").

(** An environment in which the log file cannot be opened. *)
Definition env_no_log : Env :=
  mkEnv true None (lit "2024-05-01 10:00:00.000000")
        (lit "2024-05-01T10:00:00.000000").

Definition buy_milk : json :=
  JDict [(lit "task_title", JStr (lit " Buy milk "))].

(** The store after one task has been created on a fresh service. *)
Definition one_task : World := snd (create_task env0 buy_milk (fresh [])).

(** The body of the 201 response to that request. *)
Definition one_task_body : body :=
  jsonify (row_to_json
             (Some (mkTask 1 (lit "Buy milk") (lit "pending")
                           (now_isoformat env0)))).

Definition archive_and_rename : list (str * json) :=
  [(lit "task_status", JStr (lit "archived"));
   (lit "task_title", JStr (lit "  Buy oat milk "))].

(** ** Vocabulary of the further properties *)

(** The task a request addresses when it is one that writes to a task. *)
Definition target (rq : request) : option Z :=
  match rq with
  | PUT_task id _ | DELETE_task id => Some id
  | _ => None
  end.

Definition is_get (rq : request) : bool :=
  match rq with
  | GET_tasks | GET_task _ => true
  | _ => false
  end.


(** The status codes the view function of a route returns. *)
Definition statuses (rq : request) : list Z :=
  match rq with
  | GET_tasks => [200; 500]
  | POST_tasks _ => [201; 400; 500]
  | GET_task _ => [200; 404; 500]
  | PUT_task _ _ => [200; 400; 404; 500]
  | DELETE_task _ => [204; 404; 500]
  end.




(** [isinstance(data, dict)] *)
Definition isinstance_dict (x : json) : bool :=
  match x with JDict _ => true | _ => false end.

(** An environment in which [sqlite3.connect] raises. *)
Definition env_no_db : Env :=
  mkEnv false (Some (lit "unable to open database file"))
        (lit "2024-05-01 10:00:00.000000")
        (lit "2024-05-01T10:00:00.000000").

Definition mark_done : json :=
  JDict [(lit "task_status", JStr (lit "done"))].

(** ** Strings: [strip] *)

Section Strip.

Lemma dropwhile_snoc {A} (p : A -> bool) l c :
  p c = false -> dropwhile p (l ++ [c]) = dropwhile p l ++ [c].
Proof.
  intros Hc. induction l as [|x l IH]; simpl.
  - now rewrite Hc.
  - destruct (p x); [exact IH | reflexivity].
Qed.

Lemma dropwhile_head {A} (p : A -> bool) l x r :
  dropwhile p l = x :: r -> p x = false.
Proof.
  induction l as [|y l IH]; simpl; [discriminate|].
  destruct (p y) eqn:E; [exact IH|].
  intros [= -> _]. exact E.
Qed.

Lemma dropwhile_nil_iff {A} (p : A -> bool) l :
  dropwhile p l = [] <-> forallb p l = true.
Proof.
  induction l as [|y l IH]; simpl; [tauto|].
  destruct (p y); simpl; [exact IH|].
  split; discriminate.
Qed.

Lemma rstrip_cons c r :
  is_space c = false -> rstrip (c :: r) = c :: rstrip r.
Proof.
  intros Hc. unfold rstrip. simpl rev.
  rewrite (dropwhile_snoc _ _ _ Hc), rev_app_distr. reflexivity.
Qed.

Lemma strip_unfold s :
  strip s = match lstrip s with [] => [] | c :: r => c :: rstrip r end.
Proof.
  unfold strip. destruct (lstrip s) as [|c r] eqn:E; [reflexivity|].
  apply rstrip_cons. exact (dropwhile_head _ _ _ _ E).
Qed.

Lemma strip_nil_iff s : strip s = [] <-> blank s = true.
Proof.
  rewrite strip_unfold. unfold blank. rewrite <- dropwhile_nil_iff.
  fold (lstrip s). destruct (lstrip s); split; congruence.
Qed.

Lemma strip_trimmed s : trimmed (strip s).
Proof.
  split.
  - rewrite strip_unfold. destruct (lstrip s) as [|c r] eqn:E; [reflexivity|].
    exact (dropwhile_head _ _ _ _ E).
  - unfold trailing_space, strip, rstrip. rewrite rev_involutive.
    destruct (dropwhile is_space (rev (lstrip s))) as [|c r] eqn:E;
      [reflexivity|].
    exact (dropwhile_head _ _ _ _ E).
Qed.

Lemma trimmed_not_blank s : trimmed s -> s <> [] -> blank s = false.
Proof.
  intros [H _] Hs. destruct s as [|c r]; [congruence|].
  simpl in *. now rewrite H.
Qed.

Lemma strip_not_blank s : blank s = false -> blank (strip s) = false.
Proof.
  intros Hs. apply trimmed_not_blank; [apply strip_trimmed|].
  rewrite strip_nil_iff. congruence.
Qed.

Lemma truthy_strip s : truthy (JStr (strip s)) = negb (blank s).
Proof.
  destruct (blank s) eqn:E.
  - apply strip_nil_iff in E. now rewrite E.
  - destruct (strip s) eqn:E'; [|reflexivity].
    apply strip_nil_iff in E'. congruence.
Qed.

Lemma blank_nil_truthy s : blank s = false -> truthy (JStr s) = true.
Proof. destruct s; [discriminate | reflexivity]. Qed.

(** The test both [create_task] and [modify_task] make on a title. *)
Lemma title_test title :
  truthy title && isinstance_str title && truthy (JStr (strip_of title))
  = valid_title title.
Proof.
  destruct title as [| | | |s| |]; simpl; rewrite ?andb_false_r; try reflexivity.
  fold (truthy (JStr (strip s))). rewrite truthy_strip.
  destruct (blank s) eqn:E; [apply andb_false_r|].
  destruct s; [discriminate | reflexivity].
Qed.

Lemma title_test_not title :
  negb (truthy title) || negb (isinstance_str title)
  || negb (truthy (JStr (strip_of title)))
  = negb (valid_title title).
Proof. rewrite <- title_test, !negb_andb. reflexivity. Qed.

Lemma valid_title_str title :
  valid_title title = true -> exists s, title = JStr s /\ blank s = false.
Proof.
  destruct title; try discriminate. cbn [valid_title].
  intros H. exists s. split; [reflexivity|]. now apply negb_true_iff.
Qed.

End Strip.

(** ** The store *)

Section StoreFacts.

Lemma select_by_id_some id d t :
  select_by_id id d = Some t -> In t (rows d) /\ task_id t = id.
Proof.
  unfold select_by_id. intros H. apply find_some in H as [Hin Hid].
  split; [exact Hin | now apply Z.eqb_eq].
Qed.

Lemma select_by_id_none id d :
  select_by_id id d = None <-> ~ In id (ids d).
Proof.
  unfold select_by_id, ids. induction (rows d) as [|t r IH]; simpl.
  - tauto.
  - destruct (task_id t =? id) eqn:E.
    + apply Z.eqb_eq in E. split; [discriminate | tauto].
    + apply Z.eqb_neq in E. rewrite IH. tauto.
Qed.

Lemma largest_rowid_ge rs t : In t rs -> task_id t <= largest_rowid rs.
Proof.
  induction rs as [|a r IH]; [contradiction|].
  intros [-> | Hin].
  - destruct r; simpl; lia.
  - specialize (IH Hin). destruct r as [|b r]; [contradiction|].
    change (largest_rowid (a :: b :: r))
      with (Z.max (task_id a) (largest_rowid (b :: r))).
    lia.
Qed.

Lemma next_rowid_above_rows d t : In t (rows d) -> task_id t < next_rowid d.
Proof.
  intros Hin. unfold next_rowid. pose proof (largest_rowid_ge _ _ Hin).
  destruct (rows d); [contradiction | lia].
Qed.

Lemma next_rowid_above_sequence d : sqlite_sequence d < next_rowid d.
Proof. unfold next_rowid. lia. Qed.

Lemma next_rowid_fresh d : ~ In (next_rowid d) (ids d).
Proof.
  unfold ids. rewrite in_map_iff. intros (t & Ht & Hin).
  apply next_rowid_above_rows in Hin. lia.
Qed.

Lemma find_snoc_fresh (f : Task -> bool) l t :
  (forall x, In x l -> f x = false) -> find f (l ++ [t]) = find f [t].
Proof.
  induction l as [|a l IH]; intros H; [reflexivity|].
  simpl app. cbn [find]. rewrite (H a (or_introl eq_refl)).
  apply IH. intros x Hx. apply H. now right.
Qed.

(** The row just inserted is the one its rowid selects. *)
Lemma select_inserted title status created d d' new_id :
  sql_insert title status created d = inr (d', new_id) ->
  new_id = next_rowid d /\
  rows d' = rows d ++ [mkTask new_id title status created] /\
  sqlite_sequence d' = new_id /\
  check_status status = true /\
  select_by_id new_id d' = Some (mkTask new_id title status created).
Proof.
  unfold sql_insert. destruct (check_status status); [|discriminate].
  intros [= <- <-]. repeat split; try reflexivity.
  unfold select_by_id. cbn [rows]. rewrite find_snoc_fresh.
  - cbn [find task_id]. now rewrite Z.eqb_refl.
  - intros x Hx. apply next_rowid_above_rows in Hx. apply Z.eqb_neq. lia.
Qed.

Lemma select_deleted id d : select_by_id id (sql_delete id d) = None.
Proof.
  apply select_by_id_none. unfold ids, sql_delete. cbn [rows].
  rewrite in_map_iff. intros (t & Ht & Hin).
  apply filter_In in Hin as [_ Hin]. rewrite Ht, Z.eqb_refl in Hin.
  discriminate.
Qed.

Lemma check_status_enum s :
  check_status s = true -> s = lit "pending" \/ s = lit "done".
Proof.
  unfold check_status, str_eqb. intros H. apply orb_true_iff in H.
  destruct H as [H|H]; [left|right];
    match type of H with (if ?c then _ else _) = _ => destruct c end;
    congruence.
Qed.

Lemma in_pending_done_check x :
  in_pending_done x = true ->
  exists s, x = JStr s /\ check_status s = true.
Proof. destruct x; try discriminate. intros H. now exists s. Qed.

Lemma ids_updated u id d d' :
  sql_update u id d = inr d' ->
  ids d' = ids d /\ map created_at (rows d') = map created_at (rows d) /\
  sqlite_sequence d' = sqlite_sequence d.
Proof.
  unfold sql_update.
  match goal with |- context [if ?c then _ else _] => destruct c end;
    [discriminate|].
  intros [= <-]. unfold ids. cbn [rows sqlite_sequence]. rewrite !map_map.
  repeat split; apply map_ext; intros t; now destruct (task_id t =? id).
Qed.

(** After an update, the first row of the given id is the former one with
    the new columns; the rows of other ids are as they were. *)
Lemma select_updated u id d d' k :
  sql_update u id d = inr d' ->
  select_by_id k d' =
  if k =? id then option_map (set_columns u) (select_by_id k d)
  else select_by_id k d.
Proof.
  unfold sql_update.
  match goal with |- context [if ?c then _ else _] => destruct c end;
    [discriminate|].
  intros [= <-]. unfold select_by_id. cbn [rows].
  induction (rows d) as [|t r IH]; simpl.
  - now destruct (k =? id).
  - destruct (task_id t =? id) eqn:Et.
    + cbn [set_columns task_id]. apply Z.eqb_eq in Et.
      destruct (task_id t =? k) eqn:Ek.
      * apply Z.eqb_eq in Ek.
        assert ((k =? id) = true) as -> by (apply Z.eqb_eq; lia). reflexivity.
      * exact IH.
    + destruct (task_id t =? k) eqn:Ek; [|exact IH].
      apply Z.eqb_eq in Ek. apply Z.eqb_neq in Et.
      assert ((k =? id) = false) as -> by (apply Z.eqb_neq; lia). reflexivity.
Qed.

End StoreFacts.

(** ** The handlers *)

(** Case analysis along the branches of a handler. *)
Ltac split_handler H :=
  repeat match type of H with
         | context [match ?c with _ => _ end] => destruct c eqn:?
         end;
  try discriminate.

Section Handlers.

Lemma log_request_ok env endpoint method data w :
  log_fails env = false ->
  log_request env endpoint method data w =
  inr (mkWorld (db w)
               (api_logs w ++ [mkLogLine (now env) method endpoint data])).
Proof. unfold log_request. now intros ->. Qed.

Lemma log_request_db env endpoint method data w w' :
  log_request env endpoint method data w = inr w' -> db w' = db w.
Proof.
  unfold log_request. destruct (log_fails env); [discriminate|].
  now intros [= <-].
Qed.

Lemma connect_ok env : connect_error env = None -> connect env = inr tt.
Proof. unfold connect. now intros ->. Qed.



Lemma updates_of_title title status x :
  u_title (updates_of title status) = Some x ->
  exists s, title = JStr s /\ blank s = false /\ x = strip s.
Proof.
  unfold updates_of. cbn [u_title]. rewrite title_test.
  destruct title; try discriminate. cbn [valid_title strip_of].
  destruct (blank s) eqn:E; [discriminate|]. intros [= <-]. now exists s.
Qed.

Lemma updates_of_status title status x :
  u_status (updates_of title status) = Some x -> check_status x = true.
Proof.
  unfold updates_of. cbn [u_status].
  destruct (in_pending_done status) eqn:E; [|discriminate].
  apply in_pending_done_check in E as (s & -> & E). now intros [= <-].
Qed.

(** Every handler changes the store by at most one statement. *)
Lemma handle_effect env rq w o w' :
  handle env rq w = (o, w') -> effect (db w) o (db w').
Proof.
  destruct rq; cbn [handle];
    unfold fetch_all_tasks, create_task, fetch_task, modify_task, remove_task,
      db_issue;
    intros H; split_handler H; injection H as <- <-;
    repeat match goal with
      | L : log_request _ _ _ _ _ = inr _ |- _ =>
          apply log_request_db in L; try rewrite L in *
      end;
    cbn [db with_db] in *;
    try (now apply eff_none).
  - (* create_task, 201 *)
    match goal with
    | V : _ || _ || _ = false |- _ =>
        rewrite title_test_not in V;
        apply negb_false_iff, valid_title_str in V as (s' & -> & Hs)
    end.
    match goal with
    | S : select_by_id _ _ = Some _ |- _ =>
        apply select_by_id_some in S as [_ Hid]
    end.
    eapply eff_insert; [exact Hs | eassumption |].
    cbn. now rewrite Hid.
  - (* create_task, the new row is not found *)
    match goal with
    | I : sql_insert _ _ _ _ = inr _ |- _ =>
        apply select_inserted in I as (_ & _ & _ & _ & Hsel)
    end.
    congruence.
  - (* modify_task, 200 *)
    eapply eff_update; [eassumption | reflexivity].
  - (* modify_task, the row is not found again *)
    eapply eff_update; [eassumption | reflexivity].
  - (* remove_task, 204 *)
    eapply eff_delete; reflexivity.
Qed.

End Handlers.

(** ** What an effect preserves *)

Section Effects.

Lemma select_after_delete k id d :
  select_by_id k (sql_delete id d) =
  if k =? id then None else select_by_id k d.
Proof.
  destruct (k =? id) eqn:E.
  - apply Z.eqb_eq in E as ->. apply select_deleted.
  - apply Z.eqb_neq in E. unfold select_by_id, sql_delete. cbn [rows].
    induction (rows d) as [|t r IH]; [reflexivity|]. simpl.
    destruct (task_id t =? id) eqn:Et; simpl.
    + apply Z.eqb_eq in Et.
      assert ((task_id t =? k) = false) as -> by (apply Z.eqb_neq; lia).
      exact IH.
    + destruct (task_id t =? k); [reflexivity | exact IH].
Qed.

Lemma select_after_insert title status created d d' new_id k t :
  sql_insert title status created d = inr (d', new_id) ->
  select_by_id k d = Some t -> select_by_id k d' = Some t.
Proof.
  intros H Hsel. apply select_inserted in H as (_ & Hrows & _).
  unfold select_by_id in *. rewrite Hrows. clear Hrows. revert Hsel.
  induction (rows d) as [|a r IH]; [discriminate|]. simpl.
  destruct (task_id a =? k); [trivial | exact IH].
Qed.

Lemma effect_sequence d o d' :
  effect d o d' ->
  sqlite_sequence d <= sqlite_sequence d' /\
  forall i, created_id o = Some i ->
            sqlite_sequence d < i /\ sqlite_sequence d' = i.
Proof.
  intros [-> Ho | s status created new_id _ Hins Ho
          | title status id Hupd Ho | id -> Ho].
  - split; [lia | congruence].
  - apply select_inserted in Hins as (Hid & _ & Hseq & _).
    pose proof (next_rowid_above_sequence d). split; [lia|].
    intros i Hi. rewrite Ho in Hi. injection Hi as <-. lia.
  - apply ids_updated in Hupd as (_ & _ & ->). split; [lia | congruence].
  - cbn [sql_delete sqlite_sequence]. split; [lia | congruence].
Qed.

Lemma effect_created_at d o d' : effect d o d' -> created_at_kept d d'.
Proof.
  intros [-> _ | s status created new_id _ Hins _
          | title status id Hupd _ | id -> _] k t t' Ht Ht'.
  - congruence.
  - rewrite (select_after_insert _ _ _ _ _ _ _ _ Hins Ht) in Ht'. congruence.
  - rewrite (select_updated _ _ _ _ k Hupd), Ht in Ht'.
    destruct (k =? id); cbn [option_map] in Ht'; injection Ht' as <-;
      reflexivity.
  - rewrite select_after_delete, Ht in Ht'.
    destruct (k =? id); congruence.
Qed.

(** A property of single tasks holds of all rows after an effect when the
    handlers only write tasks that have it. *)
Lemma effect_rows (P : Task -> Prop) d o d' :
  (forall id s status created,
      blank s = false -> check_status status = true ->
      P (mkTask id (strip s) status created)) ->
  (forall title status t,
      P t -> P (set_columns (updates_of title status) t)) ->
  effect d o d' -> Forall P (rows d) -> Forall P (rows d').
Proof.
  intros Hnew Hset
         [-> _ | s status created new_id Hs Hins _
          | title status id Hupd _ | id -> _] Hall.
  - exact Hall.
  - apply select_inserted in Hins as (_ & -> & _ & Hc & _).
    apply Forall_app. split; [exact Hall|].
    constructor; [now apply Hnew | constructor].
  - unfold sql_update in Hupd.
    match type of Hupd with
      (if ?c then _ else _) = _ => destruct c; [discriminate|]
    end.
    injection Hupd as <-. cbn [rows]. rewrite Forall_forall in *.
    intros x Hx. apply in_map_iff in Hx as (t & <- & Hin).
    destruct (task_id t =? id); [apply Hset|]; now apply Hall.
  - cbn [sql_delete rows]. rewrite Forall_forall in *.
    intros x Hx. apply filter_In in Hx as [Hx _]. now apply Hall.
Qed.

Lemma effect_unique d o d' : effect d o d' -> NoDup (ids d) -> NoDup (ids d').
Proof.
  intros [-> _ | s status created new_id _ Hins _
          | title status id Hupd _ | id -> _] Hnd.
  - exact Hnd.
  - apply select_inserted in Hins as (-> & Hrows & _).
    unfold ids in *. rewrite Hrows, map_app. cbn [map task_id].
    apply NoDup_app; [exact Hnd | repeat constructor; now intros [] |].
    intros k Hk [<- | []]. exact (next_rowid_fresh d Hk).
  - apply ids_updated in Hupd as (-> & _). exact Hnd.
  - unfold ids, sql_delete in *. cbn [rows].
    induction (rows d) as [|t r IH]; [constructor|].
    inversion Hnd as [|? ? Hnotin Hnd']; subst. simpl.
    destruct (task_id t =? id); simpl; [now apply IH|].
    constructor; [|now apply IH].
    rewrite in_map_iff in *. intros (x & Hx & Hin). apply Hnotin.
    exists x. split; [exact Hx|]. now apply filter_In in Hin as [Hin _].
Qed.

Lemma effect_invariant d o d' : effect d o d' -> invariant d -> invariant d'.
Proof.
  intros He [Hu Hs Ht]. constructor.
  - exact (effect_unique _ _ _ He Hu).
  - revert Hs. apply (effect_rows status_in_enum d o d'); [| |exact He].
    + intros id s status created _ Hc. now apply check_status_enum.
    + intros title status t Hst. unfold status_in_enum, set_columns.
      cbn [task_status].
      destruct (u_status (updates_of title status)) eqn:E; [|exact Hst].
      apply updates_of_status in E. now apply check_status_enum.
  - revert Ht. apply (effect_rows (fun t => blank (task_title t) = false) d o d');
      [| |exact He].
    + intros id s status created Hb _. now apply strip_not_blank.
    + intros title status t Hb. unfold set_columns. cbn [task_title].
      destruct (u_title (updates_of title status)) eqn:E; [|exact Hb].
      apply updates_of_title in E as (s' & _ & Hs' & ->).
      now apply strip_not_blank.
Qed.

End Effects.

(** ** Updates and deletions, request by request *)

Section Requests.

(** An update of an existing task with at least one valid field sets the
    columns of [updates] and answers with the refreshed row. *)
Lemma modify_task_applies env id d title status t w :
  nominal env ->
  d <> [] ->
  get (JDict d) (lit "task_title") JNull = inr title ->
  get (JDict d) (lit "task_status") JNull = inr status ->
  no_updates (updates_of title status) = false ->
  select_by_id id (db w) = Some t ->
  exists d',
    sql_update (updates_of title status) id (db w) = inr d' /\
    fst (modify_task env id (JDict d) w)
    = Return (jsonify (row_to_json
                         (Some (set_columns (updates_of title status) t)))) 200 /\
    db (snd (modify_task env id (JDict d) w)) = d'.
Proof.
  intros [Hlog Hdb] Hd Htitle Hstatus Hu Hsel.
  assert (Hupd : exists d',
             sql_update (updates_of title status) id (db w) = inr d').
  { unfold sql_update.
    destruct (u_status (updates_of title status)) eqn:E.
    - rewrite (updates_of_status _ _ _ E), andb_false_r. eauto.
    - rewrite andb_false_r. eauto. }
  destruct Hupd as (d' & Hupd). exists d'. split; [exact Hupd|].
  unfold modify_task. rewrite (log_request_ok _ _ _ _ _ Hlog).
  assert (truthy (JDict d) = true) as ->
    by (destruct d; [congruence | reflexivity]).
  cbn [negb]. rewrite Htitle, Hstatus, Hu, (connect_ok _ Hdb).
  cbn [db with_db]. rewrite Hsel, Hupd. cbn [db].
  rewrite (select_updated _ _ _ _ id Hupd), Z.eqb_refl, Hsel.
  split; reflexivity.
Qed.

Lemma remove_task_found env id t w :
  nominal env ->
  select_by_id id (db w) = Some t ->
  remove_task env id w
  = (Return (Text []) 204,
     mkWorld (sql_delete id (db w))
             (api_logs w ++ [mkLogLine (now env) (lit "DELETE")
                                       (lit "/tasks/" ++ str_of_int id) JNull])).
Proof.
  intros [Hlog Hdb] Hsel. unfold remove_task.
  rewrite (log_request_ok _ _ _ _ _ Hlog), (connect_ok _ Hdb).
  cbn [db]. now rewrite Hsel.
Qed.


Lemma fetch_task_missing env id w :
  nominal env ->
  select_by_id id (db w) = None ->
  fst (fetch_task env id w)
  = Return (jsonify (error_dict (lit "Task not found"))) 404.
Proof.
  intros [Hlog Hdb] Hsel. unfold fetch_task.
  rewrite (log_request_ok _ _ _ _ _ Hlog), (connect_ok _ Hdb).
  cbn [db]. now rewrite Hsel.
Qed.

Lemma fetch_task_found env id t w :
  nominal env ->
  select_by_id id (db w) = Some t ->
  fst (fetch_task env id w) = Return (jsonify (row_to_json (Some t))) 200.
Proof.
  intros [Hlog Hdb] Hsel. unfold fetch_task.
  rewrite (log_request_ok _ _ _ _ _ Hlog), (connect_ok _ Hdb).
  cbn [db]. now rewrite Hsel.
Qed.

(** Rowids are not given out again: after the only task is deleted, the
    next one gets a new id. *)
Example rowid_not_reused :
  created_ids
    (fst (run [(env0, POST_tasks buy_milk); (env0, DELETE_task 1);
               (env0, POST_tasks buy_milk); (env0, POST_tasks (JDict []));
               (env0, POST_tasks buy_milk)]
              (fresh [])))
  = [1; 2; 3].
Proof. reflexivity. Qed.

Example str_of_int_42 : str_of_int 42 = lit "42".
Proof. reflexivity. Qed.

Example strip_inner_space :
  strip (lit "  Buy oat milk ") = lit "Buy oat milk".
Proof. reflexivity. Qed.

End Requests.

(** ** The properties of the specification *)

(** C1. Round trip: when [create_task] answers 201, fetching the [task_id]
    of that response answers 200 with a task whose [task_title],
    [task_status] and [created_at] are those of the create response. *)
Theorem created_task_round_trip env env' data w b w' :
  create_task env data w = (Return b 201, w') ->
  nominal env' ->
  exists id b',
    field "task_id" b = Some (JInt id) /\
    fst (fetch_task env' id w') = Return b' 200 /\
    same_field "task_title" b b' /\
    same_field "task_status" b b' /\
    same_field "created_at" b b'.
Proof.
  intros H Hnom. unfold create_task, db_issue in H. split_handler H.
  injection H as <- <-.
  match goal with
  | S : select_by_id _ _ = Some ?t |- _ =>
      cbn [db with_db] in S; pose proof (select_by_id_some _ _ _ S) as [_ Hid];
      exists (task_id t), (jsonify (row_to_json (Some t)));
      rewrite <- Hid in S
  end.
  split; [reflexivity|]. split.
  - now apply fetch_task_found.
  - repeat split; eexists; split; reflexivity.
Qed.

Lemma created_task_round_trip_witness :
  create_task env0 buy_milk (fresh []) = (Return one_task_body 201, one_task)
  /\ nominal env0
  /\ exists id b',
      field "task_id" one_task_body = Some (JInt id) /\
      fst (fetch_task env0 id one_task) = Return b' 200 /\
      same_field "task_title" one_task_body b' /\
      same_field "task_status" one_task_body b' /\
      same_field "created_at" one_task_body b'.
Proof.
  split; [reflexivity|]. split; [split; reflexivity|].
  apply (created_task_round_trip env0 env0 buy_milk (fresh [])
           one_task_body one_task);
    [reflexivity | split; reflexivity].
Defined.



(** C3 fails on the empty object: for an existing task, [PUT] with the body
    [{}] is answered "No JSON data provided", not "Nothing to update". *)
Lemma empty_object_is_not_nothing_to_update :
  select_by_id 1 (db one_task) <> None /\
  fst (modify_task env0 1 (JDict []) one_task)
  = Return (jsonify (error_dict (lit "No JSON data provided"))) 400 /\
  fst (modify_task env0 1 (JDict []) one_task)
  <> Return (jsonify (error_dict (lit "Nothing to update"))) 400.
Proof.
  split; [discriminate|]. split; [reflexivity | discriminate].
Qed.

(** C3, amended. A [PUT] whose body is a non-empty object without a valid
    field is answered 400 "Nothing to update" and leaves the store as it
    is, whether or not the id exists and whether or not the store could be
    opened: the store is not consulted. *)
Theorem nothing_to_update env id d title status w :
  log_fails env = false ->
  d <> [] ->
  get (JDict d) (lit "task_title") JNull = inr title ->
  valid_title title = false ->
  get (JDict d) (lit "task_status") JNull = inr status ->
  in_pending_done status = false ->
  fst (modify_task env id (JDict d) w)
  = Return (jsonify (error_dict (lit "Nothing to update"))) 400 /\
  db (snd (modify_task env id (JDict d) w)) = db w.
Proof.
  intros Hlog Hd Htitle Hinvalid Hstatus Hs.
  unfold modify_task. rewrite (log_request_ok _ _ _ _ _ Hlog).
  assert (truthy (JDict d) = true) as ->
    by (destruct d; [congruence | reflexivity]).
  cbn [negb]. rewrite Htitle, Hstatus.
  unfold updates_of. rewrite title_test, Hinvalid, Hs.
  split; reflexivity.
Qed.

Lemma nothing_to_update_witness :
  fst (modify_task env0 7
         (JDict [(lit "task_status", JStr (lit "archived"));
                 (lit "task_title", JStr (lit "   "))]) one_task)
  = Return (jsonify (error_dict (lit "Nothing to update"))) 400 /\
  db (snd (modify_task env0 7
             (JDict [(lit "task_status", JStr (lit "archived"));
                     (lit "task_title", JStr (lit "   "))]) one_task))
  = db one_task.
Proof.
  apply (nothing_to_update env0 7 _ (JStr (lit "   "))
           (JStr (lit "archived")) one_task);
    [reflexivity | discriminate | reflexivity | reflexivity | reflexivity
     | reflexivity].
Defined.





(** C6. Every request preserves the invariant of the data model: the
    [task_id]s of the persisted tasks are pairwise distinct, every
    [task_status] is [pending] or [done], no [task_title] is empty or
    whitespace only; and the [created_at] of a task that is still there is
    what it was. *)
Theorem requests_preserve_invariant env rq w :
  invariant (db w) ->
  invariant (db (snd (handle env rq w))) /\
  created_at_kept (db w) (db (snd (handle env rq w))).
Proof.
  intros Hinv. destruct (handle env rq w) as [o w'] eqn:H. cbn [snd].
  apply handle_effect in H. split.
  - exact (effect_invariant _ _ _ H Hinv).
  - exact (effect_created_at _ _ _ H).
Qed.

Lemma requests_preserve_invariant_witness :
  invariant (db one_task) /\
  invariant (db (snd (handle env0 (PUT_task 1 (JDict archive_and_rename))
                             one_task))).
Proof.
  assert (H : invariant (db one_task)).
  { constructor.
    - repeat constructor. intros [].
    - repeat constructor.
    - repeat constructor. }
  split; [exact H|].
  exact (proj1 (requests_preserve_invariant
                  env0 (PUT_task 1 (JDict archive_and_rename)) one_task H)).
Defined.

(** C7. Along any run of requests, the [task_id]s of the 201 responses
    strictly increase in the order of the requests, so each differs from
    all those before it; each is greater than every rowid the table had
    assigned before the run, and the [task_id] of a 201 response is greater
    than that of every task in the table when the request arrives. *)
Theorem created_ids_increase :
  (forall trace w,
      StronglySorted Z.lt (created_ids (fst (run trace w))) /\
      Forall (fun id => sqlite_sequence (db w) < id)
             (created_ids (fst (run trace w))))
  /\
  (forall env data w id t,
      created_id (fst (create_task env data w)) = Some id ->
      In t (rows (db w)) -> task_id t < id).
Proof.
  split.
  - intros trace. induction trace as [|[env rq] rest IH]; intros w.
    + split; constructor.
    + cbn [run]. destruct (handle env rq w) as [o w1] eqn:H.
      apply handle_effect, effect_sequence in H as [Hle Hnew].
      destruct (IH w1) as [Hsorted Habove].
      destruct (run rest w1) as [os w2]. cbn [fst created_ids] in *.
      destruct (created_id o) as [id|].
      * destruct (Hnew id eq_refl) as [Hlt Heq]. rewrite Heq in Habove.
        split; constructor; trivial.
        eapply Forall_impl; [|exact Habove]. intros; cbn beta in *; lia.
      * split; [exact Hsorted|].
        eapply Forall_impl; [|exact Habove]. intros; cbn beta in *; lia.
  - intros env data w id t Hid Hin.
    destruct (create_task env data w) as [o w'] eqn:H. cbn [fst] in Hid.
    apply (handle_effect env (POST_tasks data)) in H.
    destruct H as [_ Ho | s status created new_id _ Hins Ho
                   | title status k _ Ho | k _ Ho];
      try congruence.
    apply select_inserted in Hins as (-> & _).
    rewrite Ho in Hid. injection Hid as <-.
    now apply next_rowid_above_rows.
Qed.

Lemma created_ids_increase_witness :
  created_id (fst (create_task env0 buy_milk one_task)) = Some 2 /\
  In (mkTask 1 (lit "Buy milk") (lit "pending") (now_isoformat env0))
     (rows (db one_task)) /\
  1 < 2.
Proof.
  split; [reflexivity|]. split; [now left|].
  apply (proj2 created_ids_increase env0 buy_milk one_task 2
           (mkTask 1 (lit "Buy milk") (lit "pending") (now_isoformat env0)));
    [reflexivity | now left].
Defined.

(** C8 fails: when the log file cannot be opened, [GET /tasks] on a fresh
    service does not return the 200 it returns when logging succeeds; the
    exception of [log_request] leaves the handler. *)
Lemma log_failure_changes_the_response :
  log_fails env_no_log = true /\
  fst (handle env0 GET_tasks (fresh [])) = Return (jsonify (JList [])) 200 /\
  fst (handle env_no_log GET_tasks (fresh [])) = Raise OSError /\
  fst (handle env_no_log GET_tasks (fresh []))
  <> fst (handle env0 GET_tasks (fresh [])).
Proof. repeat split; try reflexivity. discriminate. Qed.

(** C8, amended. On every route, a failure while appending to the request
    log leaves the handler as an [OSError] before any validation and
    before any store interaction: no response of the handler is returned,
    and the store and the log are as they were. *)
Theorem log_failure_aborts env rq w :
  log_fails env = true -> handle env rq w = (Raise OSError, w).
Proof.
  intros Hlog. destruct rq; cbn [handle];
    unfold fetch_all_tasks, create_task, fetch_task, modify_task, remove_task,
      log_request;
    now rewrite Hlog.
Qed.

Lemma log_failure_aborts_witness :
  handle env_no_log (POST_tasks buy_milk) one_task = (Raise OSError, one_task).
Proof.
  apply (log_failure_aborts env_no_log (POST_tasks buy_milk) one_task).
  reflexivity.
Defined.

(** C9. The empty object [{}] as the body of [POST /tasks] or of
    [PUT /tasks/<id>] is answered 400 "No JSON data provided", as a missing
    body ([None]) is; this holds for every store and every id, whether or
    not the store can be opened, and the store is left as it is. *)
Theorem empty_object_is_no_data env id w :
  log_fails env = false ->
  let no_data :=
    Return (jsonify (error_dict (lit "No JSON data provided"))) 400 in
  (fst (create_task env (JDict []) w) = no_data /\
   fst (create_task env JNull w) = no_data /\
   db (snd (create_task env (JDict []) w)) = db w) /\
  (fst (modify_task env id (JDict []) w) = no_data /\
   fst (modify_task env id JNull w) = no_data /\
   db (snd (modify_task env id (JDict []) w)) = db w).
Proof.
  intros Hlog no_data. unfold create_task, modify_task.
  rewrite !(log_request_ok _ _ _ _ _ Hlog). repeat split; reflexivity.
Qed.

Lemma empty_object_is_no_data_witness :
  fst (modify_task env0 999999 (JDict []) one_task)
  = Return (jsonify (error_dict (lit "No JSON data provided"))) 400.
Proof.
  apply (empty_object_is_no_data env0 999999 one_task). reflexivity.
Defined.



(** ** Further properties of the code *)

Section MoreStrings.

Lemma dropwhile_split {A} (p : A -> bool) l :
  exists pre, l = pre ++ dropwhile p l /\ forallb p pre = true.
Proof.
  induction l as [|x l (pre & Hl & Hpre)]; [now exists []|].
  simpl. destruct (p x) eqn:E.
  - exists (x :: pre). simpl. rewrite E, Hpre. split; [now f_equal | reflexivity].
  - now exists [].
Qed.

Lemma forallb_rev {A} (p : A -> bool) l :
  forallb p l = true -> forallb p (rev l) = true.
Proof.
  rewrite !forallb_forall. intros H x Hx. apply H. now apply in_rev.
Qed.

Lemma trimmed_strip s : trimmed s -> strip s = s.
Proof.
  intros [Hl Ht]. unfold strip.
  assert (lstrip s = s) as ->.
  { destruct s as [|c r]; [reflexivity|]. unfold lstrip. simpl in *.
    now rewrite Hl. }
  unfold rstrip, trailing_space in *.
  destruct (rev s) as [|c r] eqn:E.
  - apply (f_equal (@rev N)) in E. now rewrite rev_involutive in E.
  - simpl in *. rewrite Ht, <- E. apply rev_involutive.
Qed.

(** [strip] only takes whitespace away, and only at the two ends. *)
Lemma strip_split s :
  exists pre post,
    s = pre ++ strip s ++ post /\ blank pre = true /\ blank post = true.
Proof.
  destruct (dropwhile_split is_space s) as (pre & Hs & Hpre).
  destruct (dropwhile_split is_space (rev (lstrip s))) as (post & Hr & Hpost).
  exists pre, (rev post). unfold blank. split; [|split].
  - rewrite Hs at 1. f_equal. unfold strip, rstrip.
    rewrite <- rev_app_distr, <- Hr. fold (lstrip s).
    now rewrite rev_involutive.
  - exact Hpre.
  - now apply forallb_rev.
Qed.

End MoreStrings.


(** Case analysis along the branches of the handler of a request. *)
Ltac handler_cases H :=
  unfold fetch_all_tasks, create_task, fetch_task, modify_task, remove_task,
    db_issue in H;
  split_handler H; injection H as <- <-;
  try match goal with
      | L : log_request _ _ _ _ _ = inr _ |- _ =>
          pose proof (log_request_db _ _ _ _ _ _ L)
      end;
  cbn [db with_db] in *.

Section MoreStore.

Lemma update_then_select u id d d' t :
  select_by_id id d = Some t ->
  sql_update u id d = inr d' ->
  select_by_id id d' = Some (set_columns u t).
Proof.
  intros Hsel Hupd.
  now rewrite (select_updated _ _ _ _ id Hupd), Z.eqb_refl, Hsel.
Qed.


Lemma select_unique d t :
  NoDup (ids d) -> In t (rows d) -> select_by_id (task_id t) d = Some t.
Proof.
  unfold ids, select_by_id. induction (rows d) as [|a r IH]; [contradiction|].
  intros Hnd Hin. inversion Hnd as [|? ? Hnotin Hnd']; subst. simpl.
  destruct Hin as [-> | Hin]; [now rewrite Z.eqb_refl|].
  destruct (task_id a =? task_id t) eqn:E; [|now apply IH].
  apply Z.eqb_eq in E. exfalso. apply Hnotin. rewrite E.
  now apply in_map.
Qed.

Lemma delete_one_row id d t :
  NoDup (ids d) -> select_by_id id d = Some t ->
  (List.length (rows (sql_delete id d)) + 1 = List.length (rows d))%nat.
Proof.
  unfold ids, select_by_id, sql_delete. cbn [rows].
  induction (rows d) as [|a r IH]; [discriminate|].
  intros Hnd Hsel. inversion Hnd as [|? ? Hnotin Hnd']; subst. simpl in *.
  destruct (task_id a =? id) eqn:E; simpl.
  - apply Z.eqb_eq in E. subst id.
    assert (filter (fun t => negb (task_id t =? task_id a)) r = r) as ->.
    { clear -Hnotin. induction r as [|b r IH]; [reflexivity|]. simpl.
      destruct (task_id b =? task_id a) eqn:E.
      - apply Z.eqb_eq in E. exfalso. apply Hnotin. left. exact E.
      - simpl. f_equal. apply IH. intros Hin. apply Hnotin. now right. }
    now rewrite Nat.add_comm.
  - rewrite <- (IH Hnd' Hsel). reflexivity.
Qed.

End MoreStore.



(** X2. Each route answers with one of its own status codes only; a
    response with a status from 400 on is a JSON object with the single key
    [error] and a string, and a 204 has an empty body. *)
Theorem responses_by_route env rq w b status :
  fst (handle env rq w) = Return b status ->
  In status (statuses rq) /\
  (400 <= status -> exists msg, b = jsonify (error_dict msg)) /\
  (status = 204 -> b = Text []).
Proof.
  destruct (handle env rq w) as [o w'] eqn:H. cbn [fst].
  destruct rq; cbn [handle] in H; handler_cases H;
    intros [= <- <-];
    (split; [simpl; tauto|]);
    (split; [intros; try lia; eexists; reflexivity
            | intros E; try discriminate E; reflexivity]).
Qed.

Lemma responses_by_route_witness :
  fst (handle env_no_db (DELETE_task 1) one_task)
  = Return (jsonify (error_dict (lit "DB issue: unable to open database file")))
           500
  /\ In 500 (statuses (DELETE_task 1)).
Proof.
  split; [reflexivity|].
  apply (responses_by_route env_no_db (DELETE_task 1) one_task
           (jsonify (error_dict
                       (lit "DB issue: unable to open database file"))) 500).
  reflexivity.
Defined.

Section Log.




End Log.


(** X4. The two GET routes never change the store, and a request leaves
    every task alone that it does not address: a task other than the one
    named by a PUT or a DELETE is selected after the request as before. *)
Theorem writes_are_local env rq w :
  (is_get rq = true -> db (snd (handle env rq w)) = db w) /\
  (forall k t,
      target rq <> Some k ->
      select_by_id k (db w) = Some t ->
      select_by_id k (db (snd (handle env rq w))) = Some t).
Proof.
  destruct (handle env rq w) as [o w'] eqn:H. cbn [snd].
  destruct rq; cbn [handle is_get target] in *; handler_cases H;
    (split; [intros E; try discriminate E; congruence|]);
    intros k t' Hk Hsel;
    try match goal with
        | L : db _ = db w |- _ => rewrite <- L in Hsel
        end;
    try assumption;
    match goal with
    | I : sql_insert _ _ _ _ = inr _ |- _ =>
        exact (select_after_insert _ _ _ _ _ _ _ _ I Hsel)
    | U : sql_update _ _ _ = inr _ |- _ =>
        rewrite (select_updated _ _ _ _ k U);
        assert ((k =? id) = false) as -> by (apply Z.eqb_neq; congruence);
        exact Hsel
    | |- _ =>
        rewrite select_after_delete;
        assert ((k =? id) = false) as -> by (apply Z.eqb_neq; congruence);
        exact Hsel
    end.
Qed.

Lemma writes_are_local_witness :
  target (DELETE_task 2) <> Some 1 /\
  select_by_id 1 (db (snd (handle env0 (DELETE_task 2) one_task)))
  = Some (mkTask 1 (lit "Buy milk") (lit "pending") (now_isoformat env0)).
Proof.
  split; [discriminate|].
  apply (proj2 (writes_are_local env0 (DELETE_task 2) one_task) 1);
    [discriminate | reflexivity].
Defined.

Section MoreRequests.

Lemma fetch_all_tasks_ok env w :
  nominal env ->
  fst (fetch_all_tasks env w)
  = Return (jsonify (JList (map (fun row => row_to_json (Some row))
                                (rows (db w))))) 200.
Proof.
  intros [Hlog Hdb]. unfold fetch_all_tasks.
  now rewrite (log_request_ok _ _ _ _ _ Hlog), (connect_ok _ Hdb).
Qed.

Lemma truthy_dict d : d <> [] -> truthy (JDict d) = true.
Proof. destruct d; [congruence | reflexivity]. Qed.

Lemma get_dict_nonempty d key v :
  get (JDict d) key JNull = inr v -> truthy v = true -> d <> [].
Proof. intros H Hv ->. cbn in H. injection H as <-. discriminate. Qed.

End MoreRequests.

(** X5. The listing and the single fetch agree: every task that
    [GET /tasks/<id>] returns is an element of the list [GET /tasks]
    returns, the list has one element for each row, and when the ids of
    the table are pairwise distinct every element of the list is what the
    fetch of its own [task_id] returns. *)
Theorem listing_agrees_with_fetch env env' w :
  nominal env -> nominal env' ->
  exists l,
    fst (fetch_all_tasks env w) = Return (jsonify (JList l)) 200 /\
    List.length l = List.length (rows (db w)) /\
    (forall id b,
        fst (fetch_task env' id w) = Return b 200 ->
        exists j, b = jsonify j /\ In j l) /\
    (NoDup (ids (db w)) ->
     forall j, In j l ->
       exists id,
         field "task_id" (jsonify j) = Some (JInt id) /\
         fst (fetch_task env' id w) = Return (jsonify j) 200).
Proof.
  intros Hnom Hnom'.
  exists (map (fun row => row_to_json (Some row)) (rows (db w))).
  split; [now apply fetch_all_tasks_ok|].
  split; [apply length_map|]. split.
  - intros id b Hb.
    destruct (select_by_id id (db w)) as [t|] eqn:E.
    + rewrite (fetch_task_found _ _ _ _ Hnom' E) in Hb. injection Hb as <-.
      eexists. split; [reflexivity|].
      apply select_by_id_some in E as [Hin _].
      exact (in_map (fun row => row_to_json (Some row)) _ _ Hin).
    + rewrite (fetch_task_missing _ _ _ Hnom' E) in Hb. discriminate.
  - intros Hnd j Hj. apply in_map_iff in Hj as (t & <- & Hin).
    exists (task_id t). split; [reflexivity|].
    apply fetch_task_found; [exact Hnom' | now apply select_unique].
Qed.

Lemma listing_agrees_with_fetch_witness :
  nominal env0 /\
  exists l,
    fst (fetch_all_tasks env0 one_task) = Return (jsonify (JList l)) 200 /\
    List.length l = 1%nat.
Proof.
  split; [split; reflexivity|].
  destruct (listing_agrees_with_fetch env0 env0 one_task
              (conj eq_refl eq_refl) (conj eq_refl eq_refl))
    as (l & Hl & Hlen & _).
  exists l. split; [exact Hl | exact Hlen].
Defined.

(** X6. A task that was created is listed, and listed last: after a 201,
    [GET /tasks] returns the list it returned before the request with the
    body of the 201 added at the end. *)
Theorem created_task_is_listed_last env env1 env2 data w b w' :
  create_task env data w = (Return b 201, w') ->
  nominal env1 -> nominal env2 ->
  exists j l,
    b = jsonify j /\
    fst (fetch_all_tasks env1 w) = Return (jsonify (JList l)) 200 /\
    fst (fetch_all_tasks env2 w') = Return (jsonify (JList (l ++ [j]))) 200.
Proof.
  intros H Hnom1 Hnom2. handler_cases H.
  match goal with
  | I : sql_insert _ _ _ _ = inr _, S : select_by_id _ _ = Some ?t |- _ =>
      apply select_inserted in I as (_ & Hrows & _ & _ & Hsel);
      rewrite Hsel in S; injection S as <-
  end.
  eexists. eexists. split; [reflexivity|].
  split; [now apply fetch_all_tasks_ok|].
  rewrite (fetch_all_tasks_ok _ _ Hnom2). cbn [db with_db].
  match goal with L : db _ = db w |- _ => rewrite L in Hrows end.
  now rewrite Hrows, map_app.
Qed.

Lemma created_task_is_listed_last_witness :
  create_task env0 buy_milk (fresh []) = (Return one_task_body 201, one_task)
  /\ exists j l,
      one_task_body = jsonify j /\
      fst (fetch_all_tasks env0 (fresh [])) = Return (jsonify (JList l)) 200 /\
      fst (fetch_all_tasks env0 one_task)
      = Return (jsonify (JList (l ++ [j]))) 200.
Proof.
  split; [reflexivity|].
  apply (created_task_is_listed_last env0 env0 env0 buy_milk (fresh [])
           one_task_body one_task);
    [reflexivity | split; reflexivity | split; reflexivity].
Defined.

(** X7. [POST /tasks] with a JSON object whose [task_title] is missing,
    is not a string, or is empty or whitespace only is answered 400 "Task
    title must be a non-empty string", whatever the status field holds and
    whether or not the store can be opened; nothing is stored. *)
Theorem create_rejects_invalid_title env d title w :
  log_fails env = false ->
  d <> [] ->
  get (JDict d) (lit "task_title") JNull = inr title ->
  valid_title title = false ->
  fst (create_task env (JDict d) w)
  = Return (jsonify (error_dict (lit "Task title must be a non-empty string")))
           400 /\
  db (snd (create_task env (JDict d) w)) = db w.
Proof.
  intros Hlog Hd Htitle Hinvalid. unfold create_task.
  rewrite (log_request_ok _ _ _ _ _ Hlog), (truthy_dict _ Hd).
  cbn [negb]. rewrite Htitle. cbn [get].
  rewrite title_test_not, Hinvalid. split; reflexivity.
Qed.

Lemma create_rejects_invalid_title_witness :
  fst (create_task env_no_db
         (JDict [(lit "task_title", JInt 7); (lit "task_status", JInt 1)])
         one_task)
  = Return (jsonify (error_dict (lit "Task title must be a non-empty string")))
           400 /\
  db (snd (create_task env_no_db
             (JDict [(lit "task_title", JInt 7); (lit "task_status", JInt 1)])
             one_task)) = db one_task.
Proof.
  apply (create_rejects_invalid_title env_no_db _ (JInt 7) one_task);
    [reflexivity | discriminate | reflexivity | reflexivity].
Defined.

(** X8. [POST /tasks] with a valid title and a [task_status] that is
    present but is not the string [pending] or [done] (an explicit [null]
    included) is answered 400 "Status must be pending or done"; nothing is
    stored. *)
Theorem create_rejects_invalid_status env d title status w :
  log_fails env = false ->
  get (JDict d) (lit "task_title") JNull = inr title ->
  valid_title title = true ->
  get (JDict d) (lit "task_status") (JStr (lit "pending")) = inr status ->
  in_pending_done status = false ->
  fst (create_task env (JDict d) w)
  = Return (jsonify (error_dict (lit "Status must be pending or done"))) 400 /\
  db (snd (create_task env (JDict d) w)) = db w.
Proof.
  intros Hlog Htitle Hvalid Hstatus Hinvalid. unfold create_task.
  assert (Hd : d <> []).
  { apply (get_dict_nonempty _ _ _ Htitle).
    apply valid_title_str in Hvalid as (s & -> & Hs).
    now apply blank_nil_truthy. }
  rewrite (log_request_ok _ _ _ _ _ Hlog), (truthy_dict _ Hd).
  cbn [negb]. rewrite Htitle, Hstatus.
  rewrite title_test_not, Hvalid, Hinvalid. split; reflexivity.
Qed.

Lemma create_rejects_invalid_status_witness :
  fst (create_task env0
         (JDict [(lit "task_title", JStr (lit "Buy milk"));
                 (lit "task_status", JNull)])
         one_task)
  = Return (jsonify (error_dict (lit "Status must be pending or done"))) 400 /\
  db (snd (create_task env0
             (JDict [(lit "task_title", JStr (lit "Buy milk"));
                     (lit "task_status", JNull)])
             one_task)) = db one_task.
Proof.
  apply (create_rejects_invalid_status env0 _ (JStr (lit "Buy milk")) JNull
           one_task);
    [reflexivity | reflexivity | reflexivity | reflexivity | reflexivity].
Defined.

(** X9. The body decides before anything else: a falsy body ([null],
    [false], [0], [0.0], the empty string, list or object) is answered
    400 "No JSON data provided" by [POST /tasks] and [PUT /tasks/<id>];
    a truthy body that is not an object makes both raise [AttributeError]
    at [data.get]. Neither touches the store. *)
Theorem body_must_be_a_nonempty_object env id data w :
  log_fails env = false ->
  let no_data :=
    Return (jsonify (error_dict (lit "No JSON data provided"))) 400 in
  (truthy data = false ->
   fst (create_task env data w) = no_data /\
   fst (modify_task env id data w) = no_data) /\
  (truthy data = true -> isinstance_dict data = false ->
   fst (create_task env data w) = Raise AttributeError /\
   fst (modify_task env id data w) = Raise AttributeError) /\
  (isinstance_dict data = false ->
   db (snd (create_task env data w)) = db w /\
   db (snd (modify_task env id data w)) = db w).
Proof.
  intros Hlog no_data. unfold create_task, modify_task.
  rewrite !(log_request_ok _ _ _ _ _ Hlog). split; [|split].
  - intros ->. split; reflexivity.
  - intros -> Hd. destruct data; try discriminate Hd; split; reflexivity.
  - intros Hd. destruct (truthy data);
      destruct data; try discriminate Hd; split; reflexivity.
Qed.

Lemma body_must_be_a_nonempty_object_witness :
  fst (create_task env0 (JList [JStr (lit "Buy milk")]) one_task)
  = Raise AttributeError /\
  fst (modify_task env0 1 (JList [JStr (lit "Buy milk")]) one_task)
  = Raise AttributeError.
Proof.
  apply (proj1 (proj2 (body_must_be_a_nonempty_object
                         env0 1 (JList [JStr (lit "Buy milk")]) one_task
                         eq_refl)));
    reflexivity.
Defined.

(** X10. When [sqlite3.connect] raises, every request that gets as far as
    the store is answered 500 with the message of the error after "DB
    issue: ": the listing, the fetch and the deletion always, a creation
    or an update once its body has passed validation. *)
Theorem store_failure_is_a_500 env msg w :
  log_fails env = false ->
  connect_error env = Some msg ->
  let issue := Return (jsonify (error_dict (lit "DB issue: " ++ msg))) 500 in
  fst (fetch_all_tasks env w) = issue /\
  (forall id,
      fst (fetch_task env id w) = issue /\ fst (remove_task env id w) = issue)
  /\
  (forall d title status,
      get (JDict d) (lit "task_title") JNull = inr title ->
      valid_title title = true ->
      get (JDict d) (lit "task_status") (JStr (lit "pending")) = inr status ->
      in_pending_done status = true ->
      fst (create_task env (JDict d) w) = issue)
  /\
  (forall id d title status,
      d <> [] ->
      get (JDict d) (lit "task_title") JNull = inr title ->
      get (JDict d) (lit "task_status") JNull = inr status ->
      no_updates (updates_of title status) = false ->
      fst (modify_task env id (JDict d) w) = issue).
Proof.
  intros Hlog Hdb issue.
  assert (Hc : connect env = inl msg) by (unfold connect; now rewrite Hdb).
  unfold fetch_all_tasks, fetch_task, remove_task, create_task, modify_task.
  split; [|split; [|split]].
  - now rewrite (log_request_ok _ _ _ _ _ Hlog), Hc.
  - intros id. now rewrite !(log_request_ok _ _ _ _ _ Hlog), Hc.
  - intros d title status Htitle Hvalid Hstatus Hs.
    assert (Hd : d <> []).
    { apply (get_dict_nonempty _ _ _ Htitle).
      apply valid_title_str in Hvalid as (s & -> & Hb).
      now apply blank_nil_truthy. }
    rewrite (log_request_ok _ _ _ _ _ Hlog), (truthy_dict _ Hd).
    cbn [negb]. rewrite Htitle, Hstatus.
    now rewrite title_test_not, Hvalid, Hs, Hc.
  - intros id d title status Hd Htitle Hstatus Hu.
    rewrite (log_request_ok _ _ _ _ _ Hlog), (truthy_dict _ Hd).
    cbn [negb]. now rewrite Htitle, Hstatus, Hu, Hc.
Qed.

Lemma store_failure_is_a_500_witness :
  fst (fetch_all_tasks env_no_db one_task)
  = Return (jsonify (error_dict (lit "DB issue: unable to open database file")))
           500.
Proof.
  apply (store_failure_is_a_500 env_no_db (lit "unable to open database file")
           one_task);
    reflexivity.
Defined.

Section MoreUpdates.

Lemma set_columns_twice u t : set_columns u (set_columns u t) = set_columns u t.
Proof.
  unfold set_columns. cbn [task_id task_title task_status created_at].
  destruct (u_title u), (u_status u); reflexivity.
Qed.

Lemma sql_update_twice u id d d1 :
  sql_update u id d = inr d1 -> sql_update u id d1 = inr d1.
Proof.
  unfold sql_update.
  destruct (u_status u) as [s|] eqn:Es.
  - destruct (check_status s) eqn:Ec; cbn [negb]; rewrite ?andb_false_r.
    + intros [= <-]. cbn [rows sqlite_sequence]. do 2 f_equal.
      rewrite map_map. apply map_ext. intros t.
      destruct (task_id t =? id) eqn:E.
      * cbn [set_columns task_id]. rewrite E. apply set_columns_twice.
      * now rewrite E.
    + rewrite andb_true_r.
      destruct (existsb (fun t => task_id t =? id) (rows d)) eqn:Ex;
        [discriminate|].
      intros [= <-]. cbn [rows sqlite_sequence].
      assert (Hno : forall t, In t (rows d) -> (task_id t =? id) = false).
      { intros t Hin. destruct (task_id t =? id) eqn:E; [|reflexivity].
        assert (existsb (fun t => task_id t =? id) (rows d) = true)
          by (apply existsb_exists; eauto).
        congruence. }
      assert (Hsame : map (fun t => if task_id t =? id then set_columns u t
                                    else t) (rows d) = rows d).
      { rewrite <- (map_id (rows d)) at 2. apply map_ext_in.
        intros t Hin. now rewrite (Hno t Hin). }
      rewrite Hsame, Ex. cbn [andb]. now rewrite Hsame.
  - rewrite !andb_false_r. intros [= <-]. cbn [rows sqlite_sequence].
    do 2 f_equal. rewrite map_map. apply map_ext. intros t.
    destruct (task_id t =? id) eqn:E.
    + cbn [set_columns task_id]. rewrite E. apply set_columns_twice.
    + now rewrite E.
Qed.

Lemma get_inr_dict data key default v :
  get data key default = inr v -> exists d, data = JDict d.
Proof. destruct data; try discriminate. eauto. Qed.

End MoreUpdates.

(** X11. Round trip of an update: when [PUT /tasks/<id>] answers 200,
    fetching that id afterwards answers 200 with the same body. *)
Theorem updated_task_round_trip env env' id data w b w' :
  modify_task env id data w = (Return b 200, w') ->
  nominal env' ->
  fst (fetch_task env' id w') = Return b 200.
Proof.
  intros H Hnom. handler_cases H.
  now apply fetch_task_found.
Qed.

Lemma updated_task_round_trip_witness :
  fst (fetch_task env0 1 (snd (modify_task env0 1 mark_done one_task)))
  = Return (jsonify (row_to_json
                       (Some (mkTask 1 (lit "Buy milk") (lit "done")
                                     (now_isoformat env0))))) 200.
Proof.
  apply (updated_task_round_trip env0 env0 1 mark_done one_task _
           (snd (modify_task env0 1 mark_done one_task)));
    [reflexivity | split; reflexivity].
Defined.



(** X13. An update is idempotent: when [PUT /tasks/<id>] has answered
    200, the same request sent again is answered 200 with the same body
    and leaves the store as the first one left it. *)
Theorem update_is_idempotent env env' id data w b w1 :
  modify_task env id data w = (Return b 200, w1) ->
  nominal env' ->
  fst (modify_task env' id data w1) = Return b 200 /\
  db (snd (modify_task env' id data w1)) = db w1.
Proof.
  intros H Hnom. handler_cases H.
  match goal with
  | G : get _ (lit "task_title") _ = inr _ |- _ =>
      destruct (get_inr_dict _ _ _ _ G) as (d & ->)
  end.
  match goal with
  | T : negb (truthy (JDict d)) = false |- _ =>
      assert (Hd : d <> []) by (intros ->; discriminate T)
  end.
  match goal with
  | S : select_by_id id (db _) = Some ?t0,
    U : sql_update ?u id _ = inr ?s,
    S' : select_by_id id ?s = Some ?t1,
    G1 : get _ (lit "task_title") _ = inr ?title,
    G2 : get _ (lit "task_status") _ = inr ?status,
    N : no_updates _ = false |- _ =>
      pose proof (update_then_select _ _ _ _ _ S U) as Ht1;
      rewrite S' in Ht1; injection Ht1 as Ht1;
      destruct (modify_task_applies env' id d title status t1
                  (mkWorld s (api_logs w0)) Hnom Hd G1 G2 N S')
        as (d' & Hupd & Hresp & Hdb);
      cbn [db] in Hupd;
      rewrite (sql_update_twice _ _ _ _ U) in Hupd; injection Hupd as <-
  end.
  unfold with_db. rewrite Hresp, Hdb. split; [|reflexivity].
  now rewrite Ht1, set_columns_twice.
Qed.

Lemma update_is_idempotent_witness :
  fst (modify_task env0 1 (JDict archive_and_rename)
         (snd (modify_task env0 1 (JDict archive_and_rename) one_task)))
  = fst (modify_task env0 1 (JDict archive_and_rename) one_task).
Proof.
  apply (update_is_idempotent env0 env0 1 (JDict archive_and_rename) one_task
           _ (snd (modify_task env0 1 (JDict archive_and_rename) one_task)));
    [reflexivity | split; reflexivity].
Defined.



(** X15. What a 201 guarantees: the body is the stored task; its title is
    the submitted title without the whitespace at its two ends and nothing
    else removed, and it is not blank; its status is [pending] or [done];
    its [created_at] is the clock reading of the request; and its
    [task_id] was not in the table before. *)
Theorem created_task_is_well_formed env data w b w' :
  create_task env data w = (Return b 201, w') ->
  exists t s,
    b = jsonify (row_to_json (Some t)) /\
    select_by_id (task_id t) (db w') = Some t /\
    get data (lit "task_title") JNull = inr (JStr s) /\
    (exists pre post,
        s = pre ++ task_title t ++ post /\
        blank pre = true /\ blank post = true) /\
    trimmed (task_title t) /\
    blank (task_title t) = false /\
    status_in_enum t /\
    created_at t = now_isoformat env /\
    ~ In (task_id t) (ids (db w)).
Proof.
  intros H. handler_cases H.
  match goal with
  | V : _ || _ || _ = false |- _ =>
      rewrite title_test_not in V;
      apply negb_false_iff, valid_title_str in V as (s' & -> & Hs)
  end.
  match goal with
  | I : sql_insert _ _ _ _ = inr _, S : select_by_id _ _ = Some ?t,
    L : db _ = db w |- _ =>
      rewrite L in I;
      pose proof (select_inserted _ _ _ _ _ _ I) as (Hid & _ & _ & Hc & Hsel);
      rewrite Hsel in S; injection S as <-
  end.
  match type of Hsel with _ = Some ?t => exists t, s' end.
  cbn [task_id task_title task_status created_at strip_of].
  split; [reflexivity|]. split; [exact Hsel|]. split; [reflexivity|].
  split; [apply strip_split|]. split; [apply strip_trimmed|].
  split; [now apply strip_not_blank|].
  split; [now apply check_status_enum|]. split; [reflexivity|].
  rewrite Hid. apply next_rowid_fresh.
Qed.

Lemma created_task_is_well_formed_witness :
  exists t s,
    one_task_body = jsonify (row_to_json (Some t)) /\
    select_by_id (task_id t) (db one_task) = Some t /\
    get buy_milk (lit "task_title") JNull = inr (JStr s) /\
    (exists pre post,
        s = pre ++ task_title t ++ post /\
        blank pre = true /\ blank post = true) /\
    trimmed (task_title t) /\
    blank (task_title t) = false /\
    status_in_enum t /\
    created_at t = now_isoformat env0 /\
    ~ In (task_id t) (ids (db (fresh []))).
Proof.
  apply (created_task_is_well_formed env0 buy_milk (fresh []) one_task_body
           one_task).
  reflexivity.
Defined.

(** X16. When the ids of the table are pairwise distinct, a deletion
    that answers 204 removes exactly one row: the table has one row less,
    the id is gone, and the rows left are the former rows of the other
    ids. *)
Theorem delete_removes_one_row env id t w :
  nominal env ->
  NoDup (ids (db w)) ->
  select_by_id id (db w) = Some t ->
  let w' := snd (remove_task env id w) in
  (List.length (rows (db w')) + 1 = List.length (rows (db w)))%nat /\
  ~ In id (ids (db w')) /\
  (forall x, In x (rows (db w')) <-> In x (rows (db w)) /\ task_id x <> id).
Proof.
  intros Hnom Hnd Hsel w'. subst w'.
  rewrite (remove_task_found _ _ _ _ Hnom Hsel). cbn [snd db].
  split; [exact (delete_one_row _ _ _ Hnd Hsel)|]. split.
  - apply select_by_id_none, select_deleted.
  - intros x. unfold sql_delete. cbn [rows]. rewrite filter_In.
    rewrite negb_true_iff, Z.eqb_neq. reflexivity.
Qed.

Lemma delete_removes_one_row_witness :
  (List.length (rows (db (snd (remove_task env0 1 one_task)))) + 1
   = List.length (rows (db one_task)))%nat.
Proof.
  apply (delete_removes_one_row env0 1
           (mkTask 1 (lit "Buy milk") (lit "pending") (now_isoformat env0))
           one_task);
    [split; reflexivity | repeat constructor; intros [] | reflexivity].
Defined.

(** X17. Creating a task and then deleting the id of the 201 response
    leaves the rows of the table as they were before the two requests;
    only the counter of assigned ids has moved on, to that id. *)
Theorem create_then_delete_restores_rows env env' data w b w' id :
  create_task env data w = (Return b 201, w') ->
  field "task_id" b = Some (JInt id) ->
  nominal env' ->
  fst (remove_task env' id w') = Return (Text []) 204 /\
  rows (db (snd (remove_task env' id w'))) = rows (db w) /\
  sqlite_sequence (db (snd (remove_task env' id w'))) = id /\
  sqlite_sequence (db w) < id.
Proof.
  intros H Hid Hnom. handler_cases H.
  match goal with
  | I : sql_insert _ _ _ _ = inr _, S : select_by_id _ _ = Some ?t,
    L : db _ = db w |- _ =>
      rewrite L in I;
      pose proof (select_inserted _ _ _ _ _ _ I) as (Hz & Hrows & Hseq & _ & Hsel);
      rewrite Hsel in S; injection S as <-
  end.
  cbn in Hid. injection Hid as <-.
  match goal with
  | |- context [remove_task env' ?i ?W] =>
      rewrite (remove_task_found env' i _ W Hnom Hsel)
  end.
  cbn [fst snd db with_db].
  split; [reflexivity|]. split; [|split].
  - unfold sql_delete. cbn [rows]. rewrite Hrows, filter_app. cbn [filter task_id].
    rewrite Z.eqb_refl. cbn [negb]. rewrite app_nil_r.
    apply forallb_filter_id. apply forallb_forall. intros x Hx.
    apply negb_true_iff, Z.eqb_neq. apply next_rowid_above_rows in Hx. lia.
  - cbn [sql_delete sqlite_sequence]. exact Hseq.
  - rewrite Hz. apply next_rowid_above_sequence.
Qed.

Lemma create_then_delete_restores_rows_witness :
  rows (db (snd (remove_task env0 1 one_task))) = rows (db (fresh [])) /\
  sqlite_sequence (db (snd (remove_task env0 1 one_task))) = 1.
Proof.
  destruct (create_then_delete_restores_rows env0 env0 buy_milk (fresh [])
              one_task_body one_task 1 eq_refl eq_refl (conj eq_refl eq_refl))
    as (_ & Hrows & Hseq & _).
  split; [exact Hrows | exact Hseq].
Defined.

(** X18. Every state the service can reach from a new database file
    satisfies the invariant of the data model, and every [task_id] in the
    table lies between 1 and the counter of assigned ids, so an id that
    was deleted is never in the table again. *)
Theorem reachable_stores_are_consistent w :
  reachable w ->
  invariant (db w) /\
  0 <= sqlite_sequence (db w) /\
  Forall (fun id => 1 <= id <= sqlite_sequence (db w)) (ids (db w)).
Proof.
  intros Hreach. induction Hreach as [logs | env rq w _ (Hinv & Hseq & Hids)].
  - split; [|split]; [|cbn; lia|constructor].
    constructor; constructor.
  - destruct (handle env rq w) as [o w'] eqn:H. cbn [snd].
    apply handle_effect in H. split; [exact (effect_invariant _ _ _ H Hinv)|].
    destruct H as [-> _ | s status created new_id _ Hins _
                   | title status id Hupd _ | id -> _].
    + split; assumption.
    + apply select_inserted in Hins as (Hid & Hrows & Hnew & _).
      pose proof (next_rowid_above_sequence (db w)).
      rewrite Hnew. split; [lia|].
      unfold ids in *. rewrite Hrows, map_app. apply Forall_app. split.
      * eapply Forall_impl; [|exact Hids]. intros; cbn beta in *; lia.
      * repeat constructor; cbn [task_id]; lia.
    + apply ids_updated in Hupd as (-> & _ & ->). split; assumption.
    + cbn [sql_delete sqlite_sequence]. split; [exact Hseq|].
      unfold ids in *. cbn [rows]. rewrite Forall_forall in *.
      intros x Hx. apply in_map_iff in Hx as (t & <- & Hin).
      apply filter_In in Hin as [Hin _]. apply Hids. now apply in_map.
Qed.

Lemma reachable_stores_are_consistent_witness :
  reachable (snd (handle env0 (DELETE_task 1)
                         (snd (handle env0 (POST_tasks buy_milk) (fresh [])))))
  /\ sqlite_sequence
       (db (snd (handle env0 (DELETE_task 1)
                        (snd (handle env0 (POST_tasks buy_milk) (fresh []))))))
     >= 0.
Proof.
  assert (H : reachable
                (snd (handle env0 (DELETE_task 1)
                        (snd (handle env0 (POST_tasks buy_milk) (fresh [])))))).
  { apply reach_step, reach_step, reach_fresh. }
  split; [exact H|].
  destruct (reachable_stores_are_consistent _ H) as (_ & Hseq & _).
  apply Z.le_ge. exact Hseq.
Defined.

Section Sizes.


End Sizes.


